(** * google-cloud-mldiagnostics: metric normalisation and batch writing

    A shallow embedding of

    - [api/metrics.py]: [record_metrics], the normaliser in front of the
      metrics recorder;
    - [clients/logging_client.py]: [LoggingClient.write_metrics], which
      builds one structured entry per metric and submits them as one batch.

    Python objects that the code mutates (the metric description dicts) live
    in a store addressed by references; everything else is a value. *)

From Stdlib Require Import ZArith String DecimalString.
From Stdlib Require Import Floats.SpecFloat.
From stdpp Require Import gmap strings list fin_maps.

Set Default Proof Using "Type".
#[local] Set Warnings "-register-all".
#[local] Open Scope string_scope.

(** ** Python values *)

(** The values a metric description carries.  [int] is unbounded, [float] is
    an IEEE 754 binary64 datum, [bool] is kept apart from [int] although it
    is a subclass of it (see [isinstance_int_float]). *)
Inductive pyval :=
| VNone
| VBool (b : bool)
| VInt (z : Z)
| VFloat (f : spec_float)
| VStr (s : string)
| VList (l : list pyval)
| VTuple (l : list pyval)
| VEnum (member : string) (member_value : string).

(** Modelled from the spec: the enumeration [metric_types.MetricType] is
    declared in custom_types/metric_types.py, which is not part of the
    sources at hand.  A member is [VEnum member member_value], where
    [member_value] is "that enumeration's associated string value", the
    result of [.value]. *)
Definition isinstance_MetricType (v : pyval) : option string :=
  match v with
  | VEnum _ member_value => Some member_value
  | _ => None
  end.

(** [isinstance(v, (int, float))]; [True] and [False] are ints. *)
Definition isinstance_int_float (v : pyval) : bool :=
  match v with
  | VBool _ | VInt _ | VFloat _ => true
  | _ => false
  end.

(** [type(v)], by its name. *)
Definition type_name (v : pyval) : string :=
  match v with
  | VNone => "NoneType"
  | VBool _ => "bool"
  | VInt _ => "int"
  | VFloat _ => "float"
  | VStr _ => "str"
  | VList _ => "list"
  | VTuple _ => "tuple"
  | VEnum _ _ => "MetricType"
  end.

(** [str(i)] for a list index. *)
Definition str_of_nat (i : nat) : string :=
  NilEmpty.string_of_uint (Nat.to_uint i).

(** ** Metric descriptions *)

(** A metric description is the dict whose keys both functions document:
    'metric_name', 'value', 'step' and 'labels'.  Each key may be missing
    ([None] at the outer level); no other key is ever read or written.
    The entry under 'labels' has the declared type
    [Optional[dict[str, str]]]. *)
Module Metric.
Record t := Make {
  metric_name : option pyval;
  value : option pyval;
  step : option pyval;
  labels : option (option (gmap string string));
}.

(** [d["metric_name"] = v] and [d["step"] = v]. *)
Definition set_metric_name (v : pyval) (d : t) : t :=
  Make (Some v) (value d) (step d) (labels d).
Definition set_step (v : pyval) (d : t) : t :=
  Make (metric_name d) (value d) (Some v) (labels d).

(** [d.get(key)] for the two optional keys: a missing key reads as
    [None]. *)
Definition get_step (d : t) : pyval := default VNone (step d).
Definition get_labels (d : t) : option (gmap string string) :=
  default None (labels d).
End Metric.

(** ** api/metrics.py *)

(** References to dict objects and the store they point into. *)
Abbreviation ref := nat.
Abbreviation store := (gmap nat Metric.t).

(** The body of the loop of [record_metrics] on one dict (lines 90-94):
    an enumerated name is replaced by its value, and the batch-level [step]
    is written only when the dict has no 'step' key. *)
Definition normalize (step : option Z) (metric_info : Metric.t) : Metric.t :=
  let metric_info :=
    match Metric.metric_name metric_info with
    | Some metric_name =>
        match isinstance_MetricType metric_name with
        | Some member_value =>
            Metric.set_metric_name (VStr member_value) metric_info
        | None => metric_info
        end
    | None => metric_info
    end in
  match step, Metric.step metric_info with
  | Some d, None => Metric.set_step (VInt d) metric_info
  | _, _ => metric_info
  end.

(** The loop (lines 88-95).  [metrics_data] is a list of references; each
    dict is updated where it lives, and the reference itself is appended to
    [processed_metrics_data]. *)
Fixpoint normalize_loop (step : option Z) (metrics_data : list ref)
    (processed_metrics_data : list ref) (σ : store) : list ref * store :=
  match metrics_data with
  | [] => (processed_metrics_data, σ)
  | metric_info :: rest =>
      normalize_loop step rest
        (processed_metrics_data ++ [metric_info])
        (alter (normalize step) metric_info σ)
  end.

Section record_metrics.
(** The backend [_metrics_recorder.record_metrics] (core/metrics.py) is a
    collaborator: whatever it does with the list and the store. *)
Context {R : Type}.
Variable recorder_record_metrics : list ref → bool → store → R.

Definition record_metrics (metrics_data : list ref)
    (record_on_all_hosts : bool) (step : option Z) (σ : store) : R :=
  let '(processed_metrics_data, σ') :=
    normalize_loop step metrics_data [] σ in
  recorder_record_metrics processed_metrics_data record_on_all_hosts σ'.

(** [record] (lines 49-57) builds a fresh dict holding all four keys and
    hands it to [record_metrics] without a batch-level step. *)
Definition record (metric_name value step : pyval)
    (labels : option (gmap string string)) (record_on_all_hosts : bool)
    (σ : store) : R :=
  let metric_info := fresh (dom σ) in
  record_metrics [metric_info] record_on_all_hosts None
    (<[metric_info := Metric.Make (Some metric_name) (Some value)
                        (Some step) (Some labels)]> σ).
End record_metrics.

(** ** clients/logging_client.py *)

(** Exceptions.  [MLDiagnosticError] (custom_types/exceptions.py) is built
    from a message and, through [raise ... from e], carries its cause. *)
Inductive exn :=
| KeyError (key : string)
| SinkError (reason : string)
| MLDiagnosticError (message : string) (cause : exn).

(** [str(e)], as the f-string of line 182 renders the cause. *)
Definition exn_str (e : exn) : string :=
  match e with
  | KeyError key => "'" ++ key ++ "'"
  | SinkError reason => reason
  | MLDiagnosticError message _ => message
  end.

Inductive result (A : Type) :=
| Returned (a : A)
| Raised (e : exn).
Arguments Returned {A} a.
Arguments Raised {A} e.

(** Records of the module-level [logger]. *)
Inductive log_arg :=
| ArgValue (v : pyval)
| ArgType (name : string)
| ArgLen (n : nat).

Record log_record := LogRecord {
  levelname : string;
  msg : string;
  args : list log_arg;
}.

(** [resource.Resource(type=..., labels=...)]. *)
Module Resource.
Record t := Make {
  type : string;
  labels : gmap string pyval;
}.
End Resource.

(** What [batch.log_struct] appends to the open batch. *)
Record StructEntry := Entry {
  payload : gmap string pyval;
  severity : string;
  timestamp : Z;
  resource : Resource.t;
}.

(** The fields of [self] that [write_metrics] reads. *)
Record LoggingClient := Client {
  project_id : string;
  log_name : string;
}.

(** What a call can change: the entries the log sink holds, and the output
    of the module's [logger]. *)
Record world := World {
  sink : list StructEntry;
  log : list log_record;
}.

(** Lines 144-154: the list of samples, or [None] where the code logs the
    warning and goes on to the next metric. *)
Definition payload_values_of (value : pyval) : option (list pyval) :=
  if isinstance_int_float value then Some [value]
  else match value with
       | VList l => Some l
       | _ => None
       end.

Definition skip_warning (metric_name value : pyval) : log_record :=
  LogRecord "WARNING"
    "Skipping metric %s due to unsupported value type: %s"
    [ArgValue metric_name; ArgType (type_name value)].

(** Lines 163-166. *)
Definition accelerator_labels (hostname accelerator_type : string)
    (payload_values : list pyval) : list pyval :=
  imap (λ i _, VStr (hostname ++ "-" ++ accelerator_type ++ str_of_nat i))
       payload_values.

(** [if labels]: [None] and the empty dict are false. *)
Definition truthy (labels : option (gmap string string))
    : option (gmap string string) :=
  match labels with
  | Some labels => if bool_decide (labels = ∅) then None else Some labels
  | None => None
  end.

(** Lines 155-171: the payload of one metric whose value has a supported
    type.  [labels] and [step] are the results of the two [.get] calls.
    The two names are a subset of the keys of [labels] when both
    subscripts of lines 161-162 find their key. *)
Definition build_payload (payload_values : list pyval) (step : pyval)
    (labels : option (gmap string string)) : gmap string pyval :=
  let payload : gmap string pyval := {["values" := VList payload_values]} in
  let payload :=
    match truthy labels with
    | Some labels =>
        match labels !! "hostname", labels !! "accelerator_type" with
        | Some hostname, Some accelerator_type =>
            <["accelerator_labels" :=
                VList (accelerator_labels hostname accelerator_type
                         payload_values)]> payload
        | _, _ => payload
        end
    | None => payload
    end in
  let payload :=
    match step with
    | VNone => payload
    | _ => <["step_index" := step]> payload
    end in
  match truthy labels with
  | Some labels => (VStr <$> labels) ∪ payload   (* payload.update(labels) *)
  | None => payload
  end.

Inductive iteration :=
| Logged (entry : StructEntry)     (* reached [batch.log_struct] *)
| Skipped (warning : log_record).  (* reached [continue] *)

(** Modelled from the spec: the log sink and its batch scope belong to
    google.cloud.logging, not to this repository.  The scope is a "scoped
    acquisition with guaranteed submission-or-discard on exit: successful
    exit flushes all accumulated entries as one call to the sink; abnormal
    exit discards the batch rather than partially flushing", and of a flush
    "either the whole batch lands or none of it does".  [commit] stands for
    the transport: the exception it answers a batch with, if any. *)
Definition leave_batch_scope (commit : list StructEntry → option exn)
    (filled : result (list StructEntry)) (persisted : list StructEntry)
    : result unit * list StructEntry :=
  match filled with
  | Raised e => (Raised e, persisted)
  | Returned batch =>
      match commit batch with
      | Some e => (Raised e, persisted)
      | None => (Returned (), (persisted ++ batch)%list)
      end
  end.

Section write_metrics.
Variable self : LoggingClient.
Variable commit : list StructEntry → option exn.
(** The reading of the clock at line 126. *)
Variable current_time : Z.

(** One iteration of the loop (lines 129-178). *)
Definition loop_body (run_id location : string) (metric : Metric.t)
    : result iteration :=
  match Metric.metric_name metric with
  | None => Raised (KeyError "metric_name")
  | Some metric_name =>
      match Metric.value metric with
      | None => Raised (KeyError "value")
      | Some value =>
          let step := Metric.get_step metric in
          let labels := Metric.get_labels metric in
          let metric_resource :=
            Resource.Make "generic_node"
              (list_to_map
                 [("project_id", VStr (project_id self));
                  ("location", VStr location);
                  ("namespace", metric_name);
                  ("node_id", VStr run_id)]) in
          match payload_values_of value with
          | None => Returned (Skipped (skip_warning metric_name value))
          | Some payload_values =>
              Returned (Logged
                (Entry (build_payload payload_values step labels)
                       "INFO" current_time metric_resource))
          end
      end
  end.

(** The [for] loop inside the [with] block: [batch] is the list of
    entries of the open batch, [lg] the logger output so far.  An
    exception leaves the loop with the warnings already logged. *)
Fixpoint fill_batch (run_id location : string) (metrics : list Metric.t)
    (batch : list StructEntry) (lg : list log_record)
    : result (list StructEntry) * list log_record :=
  match metrics with
  | [] => (Returned batch, lg)
  | metric :: rest =>
      match loop_body run_id location metric with
      | Raised e => (Raised e, lg)
      | Returned (Skipped warning) =>
          fill_batch run_id location rest batch (lg ++ [warning])
      | Returned (Logged entry) =>
          fill_batch run_id location rest (batch ++ [entry]) lg
      end
  end.

Definition written_info (metrics : list Metric.t) : log_record :=
  LogRecord "INFO" "Successfully written %d metrics in batch."
    [ArgLen (length metrics)].

(** The [try] block (lines 126-179): the clock is read, the batch is
    filled, the [with] block is left, and only then is the count logged. *)
Definition write_metrics_try (metrics : list Metric.t)
    (run_id location : string) (w : world) : result unit * world :=
  let '(filled, lg) := fill_batch run_id location metrics [] (log w) in
  match leave_batch_scope commit filled (sink w) with
  | (Raised e, persisted) => (Raised e, World persisted lg)
  | (Returned _, persisted) =>
      (Returned (), World persisted (lg ++ [written_info metrics]))
  end.

(** Lines 180-183. *)
Definition wrap (e : exn) : exn :=
  MLDiagnosticError
    ("Failed to write metrics batch to Cloud Logging: " ++ exn_str e) e.

Definition write_metrics (metrics : list Metric.t)
    (run_id location : string) (w : world) : result unit * world :=
  match write_metrics_try metrics run_id location w with
  | (Raised e, w') => (Raised (wrap e), w')
  | (Returned r, w') => (Returned r, w')
  end.

(** Lines 97-106. *)
Definition write_metric (metric_name value : pyval) (run_id location : string)
    (step : pyval) (labels : option (gmap string string)) (w : world)
    : result unit * world :=
  write_metrics
    [Metric.Make (Some metric_name) (Some value) (Some step) (Some labels)]
    run_id location w.
End write_metrics.

(** ** [LoggingClient.__init__] and [NoOpLoggingClient] *)


(** [if credentials_path]: [None] and the empty string are false. *)
Definition truthy_path (credentials_path : option string) : option string :=
  match credentials_path with
  | Some path => if bool_decide (path = "") then None else Some path
  | None => None
  end.

Section init.
(** Credentials objects and the handles of google.cloud.logging are kept
    abstract.  A credentials object is true in a condition: [None] is the
    only false [user_credentials]. *)
Context {Credentials ClientHandle LoggerHandle : Type}.
(** [cloud_logging.Client(project=..., credentials=...)]: given the
    project, the explicit credentials if any, and the process environment in
    which it looks for default credentials; it may raise. *)
Variable cloud_logging_Client :
  string → option Credentials → gmap string string → result ClientHandle.
(** [client.logger(log_name)]. *)
Variable client_logger : ClientHandle → string → result LoggerHandle.

(** The attributes [__init__] sets. *)
Record instance := Instance {
  self_fields : LoggingClient;
  self_client : ClientHandle;
  self_logger : LoggerHandle;
}.

(** The [try] block of [__init__] (lines 52-67) on the environment
    [os.environ]. *)
Definition init_try (project_id log_name : string)
    (credentials_path : option string) (user_credentials : option Credentials)
    (environ : gmap string string) : result instance * gmap string string :=
  let '(client, environ) :=
    match user_credentials with
    | Some credentials =>
        (cloud_logging_Client project_id (Some credentials) environ, environ)
    | None =>
        match truthy_path credentials_path with
        | Some path =>
            let environ :=
              <["GOOGLE_APPLICATION_CREDENTIALS" := path]> environ in
            (cloud_logging_Client project_id None environ, environ)
        | None => (cloud_logging_Client project_id None environ, environ)
        end
    end in
  match client with
  | Raised e => (Raised e, environ)
  | Returned client =>
      match client_logger client log_name with
      | Raised e => (Raised e, environ)
      | Returned logger =>
          (Returned (Instance (Client project_id log_name) client logger),
           environ)
      end
  end.

(** Lines 69-72. *)
Definition init_wrap (e : exn) : exn :=
  MLDiagnosticError ("Failed to initialize logging client: " ++ exn_str e) e.

Definition init (project_id log_name : string)
    (credentials_path : option string) (user_credentials : option Credentials)
    (environ : gmap string string) : result instance * gmap string string :=
  match init_try project_id log_name credentials_path user_credentials
          environ with
  | (Raised e, environ') => (Raised (init_wrap e), environ')
  | (Returned self, environ') => (Returned self, environ')
  end.
End init.

(** [NoOpLoggingClient] (lines 186-212): both methods are [pass]. *)
Definition NoOp_write_metric (metric_name value : pyval)
    (run_id location : string) (step : pyval)
    (labels : option (gmap string string)) (w : world) : result unit * world :=
  (Returned (), w).
Definition NoOp_write_metrics (metrics : list Metric.t)
    (run_id location : string) (w : world) : result unit * world :=
  (Returned (), w).

(** ** Notions used in the statements *)

(** The dict has the two keys that lines 129-130 subscript. *)
Definition has_required_keys (metric : Metric.t) : Prop :=
  is_Some (Metric.metric_name metric) ∧ is_Some (Metric.value metric).

(** The types that get past lines 144-147: [bool], [int], [float], [list]. *)
Definition supported_value_type (metric : Metric.t) : bool :=
  match Metric.value metric with
  | Some (VBool _ | VInt _ | VFloat _ | VList _) => true
  | _ => false
  end.

Definition is_warning (r : log_record) : Prop := levelname r = "WARNING".

(** What the iteration over one metric contributes to the batch and to the
    logger. *)
Definition entry_of (self : LoggingClient) (current_time : Z)
    (run_id location : string) (metric : Metric.t) : option StructEntry :=
  match loop_body self current_time run_id location metric with
  | Returned (Logged entry) => Some entry
  | _ => None
  end.
Definition warning_of (self : LoggingClient) (current_time : Z)
    (run_id location : string) (metric : Metric.t) : option log_record :=
  match loop_body self current_time run_id location metric with
  | Returned (Skipped warning) => Some warning
  | _ => None
  end.

(** The shapes named by the docstring of [write_metric]: "a single int or
    float, or a list of ints and floats". *)
Definition is_int_or_float (v : pyval) : bool :=
  match v with
  | VBool _ | VInt _ | VFloat _ => true
  | _ => false
  end.
Definition documented_value_shape (v : pyval) : bool :=
  is_int_or_float v ||
  match v with
  | VList l => forallb is_int_or_float l
  | _ => false
  end.

(** [metric_name.value] for a member of the enumeration, the name itself
    otherwise. *)
Definition canonical_name (metric_name : pyval) : pyval :=
  match metric_name with
  | VEnum _ member_value => VStr member_value
  | other => other
  end.

Definition namespace (entry : StructEntry) : option pyval :=
  Resource.labels (resource entry) !! "namespace".

(** ** Sample inputs *)

(** The scenario of the documentation: two descriptions, the second with a
    step of its own, recorded with a batch-level step of 1. *)
Definition loss_042 : Metric.t :=
  Metric.Make (Some (VStr "loss"))
    (Some (VFloat (S754_finite false 7566047373982433 (-54)))) None None.
Definition lr_step5 : Metric.t :=
  Metric.Make (Some (VStr "lr"))
    (Some (VFloat (S754_finite false 5764607523034235 (-59))))
    (Some (VInt 5)) None.
Definition scenario_store : store := <[0 := loss_042]> (<[1 := lr_step5]> ∅).

Definition a_client : LoggingClient := Client "my-project" "ml_diagnostics_metric".
Definition commit_ok : list StructEntry → option exn := λ _, None.
Definition commit_unavailable : list StructEntry → option exn :=
  λ _, Some (SinkError "503 Service Unavailable").
Definition empty_world : world := World [] [].

Definition not_a_number : Metric.t :=
  Metric.Make (Some (VStr "accuracy")) (Some (VStr "not a number")) None None.
Definition list_of_not_a_number : Metric.t :=
  Metric.Make (Some (VStr "accuracy")) (Some (VList [VStr "not a number"]))
    None None.

Definition batch_of_three : list Metric.t := [loss_042; not_a_number; lr_step5].

Definition without_value : Metric.t :=
  Metric.Make (Some (VStr "throughput")) None (Some (VInt 2)) None.

Definition three_samples : pyval := VList [VInt 10; VInt 20; VInt 30].
Definition host_labels : gmap string string :=
  <["hostname" := "h"]> (<["accelerator_type" := "t"]> ∅).
Definition on_host : Metric.t :=
  Metric.Make (Some (VStr "tflops")) (Some three_samples) None
    (Some (Some host_labels)).

(** A label may bear the name of a derived key. *)
Definition clashing_labels : gmap string string :=
  <["accelerator_labels" := "chip-7"]> host_labels.
Definition on_host_clashing : Metric.t :=
  Metric.Make (Some (VStr "tflops")) (Some three_samples) None
    (Some (Some clashing_labels)).

Definition shadowing_labels : gmap string string :=
  <["values" := "per-chip"]> (<["step_index" := "warmup"]> ∅).
Definition shadowed : Metric.t :=
  Metric.Make (Some (VStr "tflops")) (Some (VInt 3)) (Some (VInt 7))
    (Some (Some shadowing_labels)).

(** A label of the caller's own beside the two reserved ones. *)
Definition team_labels : gmap string string := <["team" := "perf"]> host_labels.
Definition on_host_step7 : Metric.t :=
  Metric.Make (Some (VStr "tflops")) (Some three_samples) (Some (VInt 7))
    (Some (Some team_labels)).

Definition without_both : Metric.t := Metric.Make None None None None.


(** A description named by a member of the enumeration. *)
Definition tf_flops_enum : Metric.t :=
  Metric.Make (Some (VEnum "TF_FLOPS" "tf_flops"))
    (Some (VFloat (S754_finite false 8683503031523738 (-46)))) None None.
Definition enum_store : store := <[0 := tf_flops_enum]> (<[1 := lr_step5]> ∅).

(** * Properties of [record_metrics] *)

Section normalize_facts.
Implicit Types (d : option Z) (m : Metric.t) (σ : store).

Lemma normalize_value d m :
  Metric.value (normalize d m) = Metric.value m.
Proof.
  unfold normalize.
  destruct (Metric.metric_name m) as [n|]; [destruct (isinstance_MetricType n)|];
    destruct d; simpl; destruct (Metric.step m); reflexivity.
Qed.

Lemma normalize_labels d m :
  Metric.labels (normalize d m) = Metric.labels m.
Proof.
  unfold normalize.
  destruct (Metric.metric_name m) as [n|]; [destruct (isinstance_MetricType n)|];
    destruct d; simpl; destruct (Metric.step m); reflexivity.
Qed.

(** A 'step' key that is there keeps its value. *)
Lemma normalize_step_present d m s :
  Metric.step m = Some s → Metric.step (normalize d m) = Some s.
Proof.
  destruct m as [[n|] v st l]; simpl; intros ->; unfold normalize; simpl;
    [destruct (isinstance_MetricType n)|]; by destruct d.
Qed.

(** A missing 'step' key is filled with the default, if there is one. *)
Lemma normalize_step_absent d m :
  Metric.step m = None → Metric.step (normalize d m) = VInt <$> d.
Proof.
  destruct m as [[n|] v st l]; simpl; intros ->; unfold normalize; simpl;
    [destruct (isinstance_MetricType n)|]; by destruct d.
Qed.

Lemma normalize_metric_name d m :
  Metric.metric_name (normalize d m) =
    match Metric.metric_name m with
    | Some (VEnum _ member_value) => Some (VStr member_value)
    | other => other
    end.
Proof.
  destruct m as [[[]|] v st l]; unfold normalize; simpl;
    by destruct d, st.
Qed.

(** Nothing to do: no enumerated name, and no step to fill in. *)
Lemma normalize_id d m :
  (∀ member v, Metric.metric_name m ≠ Some (VEnum member v)) →
  d = None ∨ is_Some (Metric.step m) →
  normalize d m = m.
Proof.
  destruct m as [n v st l]; simpl; intros Hn Hd.
  assert (isinstance_MetricType <$> n = None ∨
          isinstance_MetricType <$> n = Some None) as Hname.
  { destruct n as [[]|]; simpl; auto. by destruct (Hn member member_value). }
  unfold normalize; simpl.
  destruct n as [n|]; simpl in Hname;
    [destruct (isinstance_MetricType n); [by destruct Hname|]|];
    destruct d; destruct Hd as [?|[s ->]]; done.
Qed.

(** A second pass over the same dict finds nothing left to do; this is
    what makes a dict listed twice come out as a dict listed once. *)
Lemma normalize_idemp d m : normalize d (normalize d m) = normalize d m.
Proof.
  apply normalize_id.
  - intros member v. rewrite normalize_metric_name.
    destruct (Metric.metric_name m) as [[]|]; discriminate.
  - destruct d as [z|]; [right|left; reflexivity].
    destruct (Metric.step m) as [s|] eqn:Hs.
    + rewrite (normalize_step_present _ _ _ Hs). eauto.
    + rewrite (normalize_step_absent _ _ Hs). simpl. eauto.
Qed.

Lemma normalize_loop_processed d metrics_data processed σ :
  (normalize_loop d metrics_data processed σ).1
    = (processed ++ metrics_data)%list.
Proof.
  revert processed σ.
  induction metrics_data as [|a rest IH]; intros processed σ; simpl.
  - by rewrite app_nil_r.
  - rewrite IH. by rewrite <- app_assoc.
Qed.

(** The store after the loop, dict by dict. *)
Lemma normalize_loop_lookup d metrics_data processed σ (a : ref) :
  (normalize_loop d metrics_data processed σ).2 !! a =
    if decide (a ∈ metrics_data) then normalize d <$> σ !! a else σ !! a.
Proof.
  revert processed σ.
  induction metrics_data as [|x rest IH]; intros processed σ; simpl.
  - done.
  - rewrite IH, lookup_alter.
    destruct (decide (x = a)) as [->|Hne].
    + rewrite (decide_True (P := a ∈ a :: rest)) by left.
      destruct (decide (a ∈ rest)); [|done].
      destruct (σ !! a); simpl; [|done]. by rewrite normalize_idemp.
    + destruct (decide (a ∈ rest)) as [Hin|Hin].
      * rewrite (decide_True (P := a ∈ x :: rest)); [done | by right].
      * rewrite (decide_False (P := a ∈ x :: rest)); [done|].
        intros [?|?]%elem_of_cons; congruence.
Qed.

(** What the recorder is called with. *)
Lemma record_metrics_unfold {R} (recorder : list ref → bool → store → R)
    metrics_data flag d σ :
  record_metrics recorder metrics_data flag d σ =
    recorder metrics_data flag (normalize_loop d metrics_data [] σ).2.
Proof.
  unfold record_metrics.
  pose proof (normalize_loop_processed d metrics_data [] σ) as Hp.
  destruct (normalize_loop d metrics_data [] σ) as [p σ']. simpl in *.
  by subst p.
Qed.
End normalize_facts.

(** C2, as stated, fails: [record_metrics] writes into the caller's own
    dict.  After recording the description at reference 0 with a batch-level
    step of 1, that dict has a 'step' key which it did not have before, so
    the store the recorder sees differs from the caller's. *)
Lemma record_metrics_mutates_caller_dict :
  let σ' := record_metrics (λ _ _ σ', σ') [0; 1] false (Some 1%Z) scenario_store in
  scenario_store !! 0 = Some loss_042 ∧
  σ' !! 0 = Some (Metric.set_step (VInt 1) loss_042) ∧
  σ' ≠ scenario_store.
Proof.
  assert (record_metrics (λ _ _ σ', σ') [0; 1] false (Some 1%Z) scenario_store !! 0
          = Some (Metric.set_step (VInt 1) loss_042)) as H by reflexivity.
  split; [reflexivity|]. split; [exact H|].
  intros Heq. rewrite Heq in H. discriminate H.
Qed.

(** C2, amended: [record_metrics] passes the recorder the very list of
    dict objects it was given, in the same order, and leaves every dict
    outside that list alone; a dict in the list is updated in place by
    [normalize], which never touches 'value' or 'labels', changes
    'metric_name' only when it is an enumeration member, and changes 'step'
    only when the key is missing and a batch-level step was given. *)
Theorem record_metrics_frame
    (metrics_data : list ref) (record_on_all_hosts : bool) (d : option Z)
    (σ : store) :
  ∃ σ' : store,
    (∀ R (recorder : list ref → bool → store → R),
       record_metrics recorder metrics_data record_on_all_hosts d σ
       = recorder metrics_data record_on_all_hosts σ') ∧
    (∀ a : ref, a ∉ metrics_data → σ' !! a = σ !! a) ∧
    (∀ a : ref, a ∈ metrics_data → σ' !! a = normalize d <$> σ !! a) ∧
    (∀ a : ref, σ !! a = None → σ' !! a = None) ∧
    (∀ (a : ref) (m : Metric.t), σ !! a = Some m →
       ∃ m', σ' !! a = Some m' ∧
         Metric.value m' = Metric.value m ∧
         Metric.labels m' = Metric.labels m ∧
         ((∀ member v, Metric.metric_name m ≠ Some (VEnum member v)) →
          Metric.metric_name m' = Metric.metric_name m) ∧
         (d = None ∨ is_Some (Metric.step m) →
          Metric.step m' = Metric.step m)).
Proof.
  exists (normalize_loop d metrics_data [] σ).2.
  split; [intros; apply record_metrics_unfold|].
  split; [intros a Ha; by rewrite normalize_loop_lookup, decide_False|].
  split; [intros a Ha; by rewrite normalize_loop_lookup, decide_True|].
  split.
  - intros a Ha. rewrite normalize_loop_lookup, Ha. by case_decide.
  - intros a m Ha. rewrite normalize_loop_lookup, Ha.
    case_decide; simpl.
    + exists (normalize d m). split; [done|].
      split; [apply normalize_value|]. split; [apply normalize_labels|].
      split.
      * intros Hn. rewrite normalize_metric_name.
        destruct (Metric.metric_name m) as [[]|]; try done.
        by destruct (Hn member member_value).
      * intros [->|[s Hs]]; [|by rewrite Hs; apply normalize_step_present].
        destruct (Metric.step m) as [s|] eqn:Hs.
        -- by apply normalize_step_present.
        -- by rewrite normalize_step_absent.
    + exists m. auto.
Qed.

(** C3 (step precedence): a description of the batch whose dict has a
    'step' key, holding [s], still holds [s] under that key when the
    recorder receives it, whatever batch-level step [d] was passed. *)
Theorem record_metrics_explicit_step_wins
    (metrics_data : list ref) (record_on_all_hosts : bool) (d : option Z)
    (σ : store) (a : ref) (m : Metric.t) (s : pyval) :
  a ∈ metrics_data → σ !! a = Some m → Metric.step m = Some s →
  ∃ σ' : store,
    (∀ R (recorder : list ref → bool → store → R),
       record_metrics recorder metrics_data record_on_all_hosts d σ
       = recorder metrics_data record_on_all_hosts σ') ∧
    ∃ m', σ' !! a = Some m' ∧ Metric.step m' = Some s.
Proof.
  intros Hin Ha Hs.
  exists (normalize_loop d metrics_data [] σ).2.
  split; [intros; apply record_metrics_unfold|].
  exists (normalize d m). split.
  - by rewrite normalize_loop_lookup, decide_True, Ha.
  - by apply normalize_step_present.
Qed.

Lemma record_metrics_explicit_step_wins_scenario :
  1 ∈ [0; 1] ∧ scenario_store !! 1 = Some lr_step5 ∧
  Metric.step lr_step5 = Some (VInt 5) ∧
  ∃ σ' : store,
    (∀ R (recorder : list ref → bool → store → R),
       record_metrics recorder [0; 1] false (Some 1%Z) scenario_store
       = recorder [0; 1] false σ') ∧
    ∃ m', σ' !! 1 = Some m' ∧ Metric.step m' = Some (VInt 5).
Proof.
  assert (1 ∈ [0; 1]) as Hin by (right; left).
  split; [exact Hin|]. split; [reflexivity|]. split; [reflexivity|].
  exact (record_metrics_explicit_step_wins [0; 1] false (Some 1%Z)
           scenario_store 1 lr_step5 (VInt 5) Hin eq_refl eq_refl).
Defined.

(** C4 (default backfill): a description of the batch whose dict has no
    'step' key reaches the recorder with 'step' set to the batch-level step
    when one was passed, and still without a 'step' key when none was. *)
Theorem record_metrics_backfills_missing_step
    (metrics_data : list ref) (record_on_all_hosts : bool) (d : option Z)
    (σ : store) (a : ref) (m : Metric.t) :
  a ∈ metrics_data → σ !! a = Some m → Metric.step m = None →
  ∃ σ' : store,
    (∀ R (recorder : list ref → bool → store → R),
       record_metrics recorder metrics_data record_on_all_hosts d σ
       = recorder metrics_data record_on_all_hosts σ') ∧
    ∃ m', σ' !! a = Some m' ∧
      match d with
      | Some default_step => Metric.step m' = Some (VInt default_step)
      | None => Metric.step m' = None
      end.
Proof.
  intros Hin Ha Hs.
  exists (normalize_loop d metrics_data [] σ).2.
  split; [intros; apply record_metrics_unfold|].
  exists (normalize d m). split.
  - by rewrite normalize_loop_lookup, decide_True, Ha.
  - rewrite (normalize_step_absent d m Hs). by destruct d.
Qed.

Lemma record_metrics_backfills_missing_step_scenario :
  0 ∈ [0; 1] ∧ scenario_store !! 0 = Some loss_042 ∧
  Metric.step loss_042 = None ∧
  ∃ σ' : store,
    (∀ R (recorder : list ref → bool → store → R),
       record_metrics recorder [0; 1] false (Some 1%Z) scenario_store
       = recorder [0; 1] false σ') ∧
    ∃ m', σ' !! 0 = Some m' ∧ Metric.step m' = Some (VInt 1).
Proof.
  assert (0 ∈ [0; 1]) as Hin by left.
  split; [exact Hin|]. split; [reflexivity|]. split; [reflexivity|].
  exact (record_metrics_backfills_missing_step [0; 1] false (Some 1%Z)
           scenario_store 0 loss_042 Hin eq_refl eq_refl).
Defined.

(** * Properties of [LoggingClient.write_metrics] *)

Section write_metrics_facts.
Variable self : LoggingClient.
Variable commit : list StructEntry → option exn.
Variable current_time : Z.
Variables run_id location : string.

Local Abbreviation body := (loop_body self current_time run_id location).
Local Abbreviation fill := (fill_batch self current_time run_id location).
Local Abbreviation entry_of := (entry_of self current_time run_id location).
Local Abbreviation warning_of :=
  (warning_of self current_time run_id location).

(** The three ways through the loop body. *)
Lemma loop_body_cases metric :
  match body metric with
  | Raised e =>
      (Metric.metric_name metric = None ∧ e = KeyError "metric_name") ∨
      (is_Some (Metric.metric_name metric) ∧ Metric.value metric = None ∧
       e = KeyError "value")
  | Returned (Skipped warning) =>
      ∃ metric_name value,
        Metric.metric_name metric = Some metric_name ∧
        Metric.value metric = Some value ∧
        payload_values_of value = None ∧
        warning = skip_warning metric_name value
  | Returned (Logged entry) =>
      ∃ metric_name value payload_values,
        Metric.metric_name metric = Some metric_name ∧
        Metric.value metric = Some value ∧
        payload_values_of value = Some payload_values ∧
        payload entry = build_payload payload_values
                          (Metric.get_step metric) (Metric.get_labels metric) ∧
        severity entry = "INFO" ∧
        timestamp entry = current_time
  end.
Proof.
  unfold loop_body.
  destruct (Metric.metric_name metric) as [n|]; [|by left].
  destruct (Metric.value metric) as [v|]; [|right; eauto].
  destruct (payload_values_of v) as [vs|] eqn:Hv.
  - exists n, v, vs. by repeat split.
  - exists n, v. by repeat split.
Qed.

Lemma loop_body_raises metric e :
  body metric = Raised e → ¬ has_required_keys metric.
Proof.
  intros He [[n Hn] [v Hv]].
  pose proof (loop_body_cases metric) as H. rewrite He in H.
  destruct H as [[H _]|(_ & H & _)]; congruence.
Qed.

Lemma loop_body_returns metric :
  has_required_keys metric ↔ ∃ it, body metric = Returned it.
Proof.
  split.
  - intros Hk. destruct (body metric) as [it|e] eqn:E; [eauto|].
    by destruct (loop_body_raises _ _ E).
  - intros [it Hit]. pose proof (loop_body_cases metric) as H.
    rewrite Hit in H. unfold has_required_keys.
    destruct it; [destruct H as (n & v & vs & -> & -> & _)
                 |destruct H as (n & v & -> & -> & _)]; eauto.
Qed.

Lemma loop_body_supported metric :
  has_required_keys metric →
  if supported_value_type metric
  then is_Some (entry_of metric) ∧ warning_of metric = None
  else entry_of metric = None ∧ is_Some (warning_of metric).
Proof.
  intros [[n Hn] [v Hv]].
  unfold supported_value_type, entry_of, warning_of, loop_body.
  rewrite Hn, Hv. destruct v; simpl; eauto.
Qed.

(** The loop either runs into a dict without its keys, having logged the
    warnings of the metrics before it, or gets through the whole list. *)
Lemma fill_batch_spec metrics batch lg :
  (∃ pre metric post e,
      metrics = (pre ++ metric :: post)%list ∧
      Forall has_required_keys pre ∧
      body metric = Raised e ∧
      fill metrics batch lg
        = (Raised e, (lg ++ omap warning_of pre)%list)) ∨
  (Forall has_required_keys metrics ∧
   fill metrics batch lg
     = (Returned (batch ++ omap entry_of metrics)%list,
        (lg ++ omap warning_of metrics)%list)).
Proof.
  revert batch lg.
  induction metrics as [|m rest IH]; intros batch lg.
  - right. split; [constructor|]. simpl. by rewrite !app_nil_r.
  - cbn [fill_batch omap list_omap].
    pose proof (eq_refl : entry_of m = entry_of m) as He.
    pose proof (eq_refl : warning_of m = warning_of m) as Hw.
    unfold entry_of in He at 2. unfold warning_of in Hw at 2.
    destruct (body m) as [[entry|warning]|e] eqn:Hm; rewrite He, Hw.
    + assert (has_required_keys m) as Hk by (apply loop_body_returns; eauto).
      destruct (IH (batch ++ [entry])%list lg)
        as [(pre & m' & post & e & -> & Hpre & Hm' & ->)|[Hall ->]].
      * left. exists (m :: pre), m', post, e.
        split; [done|]. split; [by constructor|]. split; [done|].
        cbn [omap list_omap]. by rewrite Hw.
      * right. split; [by constructor|]. by rewrite <- app_assoc.
    + assert (has_required_keys m) as Hk by (apply loop_body_returns; eauto).
      destruct (IH batch (lg ++ [warning])%list)
        as [(pre & m' & post & e & -> & Hpre & Hm' & ->)|[Hall ->]].
      * left. exists (m :: pre), m', post, e.
        split; [done|]. split; [by constructor|]. split; [done|].
        cbn [omap list_omap]. rewrite Hw. by rewrite <- app_assoc.
      * right. split; [by constructor|]. by rewrite <- app_assoc.
    + left. exists [], m, rest, e.
      split; [done|]. split; [constructor|]. split; [done|].
      simpl. by rewrite app_nil_r.
Qed.

(** How many entries and warnings a list of well-keyed metrics gives. *)
Lemma entries_count metrics :
  Forall has_required_keys metrics →
  length (omap entry_of metrics)
    = length (List.filter supported_value_type metrics) ∧
  length (omap warning_of metrics)
    = length (List.filter (λ m, negb (supported_value_type m)) metrics).
Proof.
  induction 1 as [|m rest Hm _ [IHe IHw]]; [done|].
  pose proof (loop_body_supported m Hm) as Hs.
  cbn [omap list_omap List.filter].
  destruct (supported_value_type m); simpl in *.
  - destruct Hs as [[e ->] ->]. simpl. by rewrite IHe, IHw.
  - destruct Hs as [-> [wr ->]]. simpl. by rewrite IHe, IHw.
Qed.

Lemma warning_of_is_warning metric warning :
  warning_of metric = Some warning → is_warning warning.
Proof.
  unfold warning_of. pose proof (loop_body_cases metric) as Hc.
  destruct (body metric) as [[entry|wr]|e]; try discriminate.
  destruct Hc as (n & v & _ & _ & _ & ->). by intros [= <-].
Qed.

Lemma warnings_are_warnings metrics :
  Forall is_warning (omap warning_of metrics).
Proof.
  apply Forall_forall. intros wr (m & _ & Hm)%list_elem_of_omap.
  by eapply warning_of_is_warning.
Qed.

Lemma entry_of_stamped metric entry :
  entry_of metric = Some entry →
  timestamp entry = current_time ∧ severity entry = "INFO".
Proof.
  unfold entry_of. pose proof (loop_body_cases metric) as Hc.
  destruct (body metric) as [[e|wr]|e]; try discriminate.
  destruct Hc as (n & v & vs & _ & _ & _ & _ & Hsev & Hts).
  by intros [= <-].
Qed.
End write_metrics_facts.

(** ** The payload *)

Section build_payload_facts.
Implicit Types (payload_values : list pyval) (step : pyval).
Implicit Types (labels : gmap string string).

Lemma truthy_empty : truthy (Some ∅) = None.
Proof. reflexivity. Qed.

Lemma truthy_nonempty labels : labels ≠ ∅ → truthy (Some labels) = Some labels.
Proof. intros Hne. unfold truthy. by rewrite bool_decide_eq_false_2. Qed.

(** [payload.update(labels)] comes last, so a label always shows. *)
Lemma build_payload_label payload_values step labels k v :
  labels !! k = Some v →
  build_payload payload_values step (Some labels) !! k = Some (VStr v).
Proof.
  intros Hk. unfold build_payload.
  rewrite (truthy_nonempty labels) by (intros ->; by rewrite lookup_empty in Hk).
  apply lookup_union_Some_l. by rewrite lookup_fmap, Hk.
Qed.

(** Under a key that is no label, the payload holds what lines 155-169
    put there. *)
Lemma build_payload_values payload_values step labels :
  labels !! "values" = None →
  build_payload payload_values step (Some labels) !! "values"
    = Some (VList payload_values).
Proof.
  intros Hk. unfold build_payload.
  destruct (decide (labels = ∅)) as [->|Hne].
  - rewrite truthy_empty. destruct step; by simplify_map_eq.
  - rewrite (truthy_nonempty labels Hne).
    rewrite lookup_union_r by (by rewrite lookup_fmap, Hk).
    destruct (labels !! "hostname"), (labels !! "accelerator_type"), step;
      by simplify_map_eq.
Qed.

Lemma build_payload_step_index payload_values step labels :
  labels !! "step_index" = None →
  build_payload payload_values step (Some labels) !! "step_index"
    = match step with VNone => None | _ => Some step end.
Proof.
  intros Hk. unfold build_payload.
  destruct (decide (labels = ∅)) as [->|Hne].
  - rewrite truthy_empty. destruct step; by simplify_map_eq.
  - rewrite (truthy_nonempty labels Hne).
    rewrite lookup_union_r by (by rewrite lookup_fmap, Hk).
    destruct (labels !! "hostname"), (labels !! "accelerator_type"), step;
      by simplify_map_eq.
Qed.

Lemma build_payload_accelerator_labels payload_values step labels :
  labels !! "accelerator_labels" = None →
  build_payload payload_values step (Some labels) !! "accelerator_labels"
    = match labels !! "hostname", labels !! "accelerator_type" with
      | Some hostname, Some accelerator_type =>
          Some (VList (accelerator_labels hostname accelerator_type
                         payload_values))
      | _, _ => None
      end.
Proof.
  intros Hk. unfold build_payload.
  destruct (decide (labels = ∅)) as [->|Hne].
  - rewrite truthy_empty. destruct step; by simplify_map_eq.
  - rewrite (truthy_nonempty labels Hne).
    rewrite lookup_union_r by (by rewrite lookup_fmap, Hk).
    destruct (labels !! "hostname"), (labels !! "accelerator_type"), step;
      by simplify_map_eq.
Qed.

(** The comprehension of lines 163-166, index by index. *)
Lemma accelerator_labels_seq hostname accelerator_type payload_values :
  accelerator_labels hostname accelerator_type payload_values
    = (λ i, VStr (hostname ++ "-" ++ accelerator_type ++ str_of_nat i))
        <$> seq 0 (length payload_values).
Proof. unfold accelerator_labels. apply imap_seq_0. Qed.
End build_payload_facts.

(** * The batch writer on whole batches *)

Lemma filter_partition_length {A} (p : A → bool) (l : list A) :
  length (List.filter p l) + length (List.filter (λ x, negb (p x)) l)
    = length l.
Proof. induction l as [|x l IH]; simpl; [done|]. destruct (p x); simpl; lia. Qed.

(** What [write_metrics] does, by the way the loop ends. *)
Lemma write_metrics_spec self commit current_time metrics run_id location w :
  let entries := omap (entry_of self current_time run_id location) in
  let warnings := omap (warning_of self current_time run_id location) in
  (∃ pre metric post e,
      metrics = (pre ++ metric :: post)%list ∧
      Forall has_required_keys pre ∧
      loop_body self current_time run_id location metric = Raised e ∧
      write_metrics self commit current_time metrics run_id location w
        = (Raised (wrap e), World (sink w) (log w ++ warnings pre))) ∨
  (Forall has_required_keys metrics ∧
   write_metrics self commit current_time metrics run_id location w
     = match commit (entries metrics) with
       | Some e =>
           (Raised (wrap e), World (sink w) (log w ++ warnings metrics))
       | None =>
           (Returned (),
            World (sink w ++ entries metrics)
                  ((log w ++ warnings metrics) ++ [written_info metrics]))
       end).
Proof.
  intros entries warnings.
  unfold write_metrics, write_metrics_try, leave_batch_scope.
  destruct (fill_batch_spec self current_time run_id location metrics [] (log w))
    as [(pre & m & post & e & Hm & Hpre & He & ->)|[Hall ->]].
  - left. by exists pre, m, post, e.
  - right. split; [done|]. simpl.
    fold (entries metrics). by destruct (commit (entries metrics)).
Qed.

(** C1, as stated, fails: a value that is a list is never inspected.  The
    list holding the string "not a number" is neither a number nor a list of
    numbers, yet the batch made of that one record writes one entry, not
    none, with the string among its samples. *)
Lemma write_metrics_keeps_list_of_strings :
  documented_value_shape (VList [VStr "not a number"]) = false ∧
  ∃ entry,
    write_metrics a_client commit_ok 0 [list_of_not_a_number] "run-1" "us-central1"
      empty_world
    = (Returned (), World [entry] [written_info [list_of_not_a_number]]) ∧
    payload entry !! "values" = Some (VList [VStr "not a number"]) ∧
    length [entry] ≠ length [list_of_not_a_number] - 1.
Proof.
  split; [reflexivity|]. eexists. split; [reflexivity|].
  split; [reflexivity|]. simpl. lia.
Qed.

(** C1, amended: in a batch whose dicts all have the keys 'metric_name'
    and 'value', a record whose value is not a [bool], [int], [float] or
    [list] is skipped with a warning and gives no entry, every other record
    gives one entry (a list is taken as it is, whatever it holds), and the
    loop raises nothing; when the commit succeeds too, the call returns and
    the sink has received exactly those entries.  With exactly one skipped
    record, a batch of N gives N - 1 entries. *)
Theorem write_metrics_skips_unsupported_types
    self commit current_time (metrics : list Metric.t) run_id location w :
  Forall has_required_keys metrics →
  ∃ batch warnings,
    fill_batch self current_time run_id location metrics [] (log w)
      = (Returned batch, (log w ++ warnings)%list) ∧
    length batch = length (List.filter supported_value_type metrics) ∧
    length warnings
      = length (List.filter (λ m, negb (supported_value_type m)) metrics) ∧
    Forall is_warning warnings ∧
    (length warnings = 1 → length batch = length metrics - 1) ∧
    (commit batch = None →
     write_metrics self commit current_time metrics run_id location w
       = (Returned (),
          World (sink w ++ batch)
                ((log w ++ warnings) ++ [written_info metrics]))).
Proof.
  intros Hall.
  exists (omap (entry_of self current_time run_id location) metrics),
         (omap (warning_of self current_time run_id location) metrics).
  destruct (entries_count self current_time run_id location metrics Hall)
    as [He Hw].
  split.
  { destruct (fill_batch_spec self current_time run_id location metrics []
                (log w)) as [(pre & m & post & e & -> & _ & Hm & _)|[_ ->]];
      [|done].
    apply loop_body_raises in Hm. destruct Hm.
    by apply Forall_app in Hall as [_ [? _]%Forall_cons]. }
  split; [done|]. split; [done|].
  split; [apply warnings_are_warnings|].
  split.
  { pose proof (filter_partition_length supported_value_type metrics). lia. }
  intros Hc. destruct (write_metrics_spec self commit current_time metrics
                         run_id location w)
    as [(pre & m & post & e & -> & _ & Hm & _)|[_ ->]].
  - apply loop_body_raises in Hm. destruct Hm.
    by apply Forall_app in Hall as [_ [? _]%Forall_cons].
  - by rewrite Hc.
Qed.

Lemma batch_of_three_keys : Forall has_required_keys batch_of_three.
Proof. repeat constructor; simpl; eauto. Defined.

Lemma write_metrics_skips_unsupported_types_batch_of_three :
  Forall has_required_keys batch_of_three ∧
  ∃ batch warnings,
    fill_batch a_client 0 "run-1" "us-central1" batch_of_three [] []
      = (Returned batch, warnings) ∧
    length batch = 2 ∧
    length warnings = 1 ∧
    Forall is_warning warnings ∧
    (length warnings = 1 → length batch = 3 - 1) ∧
    (commit_ok batch = None →
     write_metrics a_client commit_ok 0 batch_of_three "run-1" "us-central1"
       empty_world
       = (Returned (),
          World batch (warnings ++ [written_info batch_of_three]))).
Proof.
  split; [exact batch_of_three_keys|].
  exact (write_metrics_skips_unsupported_types a_client commit_ok 0
           batch_of_three "run-1" "us-central1" empty_world
           batch_of_three_keys).
Defined.

(** ** C5 and C6: the payload of one entry *)

(** C5, as stated, fails: the labels are merged into the payload after
    'accelerator_labels' was derived, so a label of that name replaces the
    derived list although 'hostname' and 'accelerator_type' are both
    there. *)
Lemma accelerator_labels_replaced_by_label :
  clashing_labels !! "hostname" = Some "h" ∧
  clashing_labels !! "accelerator_type" = Some "t" ∧
  payload_values_of three_samples = Some [VInt 10; VInt 20; VInt 30] ∧
  ∃ entry,
    loop_body a_client 0 "run-1" "us-central1" on_host_clashing
      = Returned (Logged entry) ∧
    payload entry !! "accelerator_labels" = Some (VStr "chip-7") ∧
    payload entry !! "accelerator_labels"
      ≠ Some (VList [VStr "h-t0"; VStr "h-t1"; VStr "h-t2"]).
Proof.
  do 3 (split; [reflexivity|]). eexists. split; [reflexivity|].
  split; [reflexivity|]. intros H. vm_compute in H. discriminate H.
Qed.

(** C5, amended: for a record whose labels hold 'hostname' (h) and
    'accelerator_type' (t) and no label named 'accelerator_labels', and
    whose list of samples has length n, the payload's 'accelerator_labels'
    is the list of the strings h-t0, ..., h-t(n-1). *)
Theorem accelerator_labels_by_sample_index
    self current_time run_id location (metric : Metric.t)
    (metric_name value : pyval) (payload_values : list pyval)
    (labels : gmap string string) (h t : string) :
  Metric.metric_name metric = Some metric_name →
  Metric.value metric = Some value →
  payload_values_of value = Some payload_values →
  Metric.labels metric = Some (Some labels) →
  labels !! "hostname" = Some h →
  labels !! "accelerator_type" = Some t →
  labels !! "accelerator_labels" = None →
  ∃ entry,
    loop_body self current_time run_id location metric
      = Returned (Logged entry) ∧
    payload entry !! "accelerator_labels"
      = Some (VList ((λ i, VStr (h ++ "-" ++ t ++ str_of_nat i))
                       <$> seq 0 (length payload_values))).
Proof.
  intros Hn Hv Hvs Hl Hh Ht Hfree.
  unfold loop_body. rewrite Hn, Hv, Hvs. eexists. split; [reflexivity|].
  simpl. unfold Metric.get_labels. rewrite Hl. simpl.
  rewrite build_payload_accelerator_labels by done.
  by rewrite Hh, Ht, accelerator_labels_seq.
Qed.

Lemma accelerator_labels_by_sample_index_h_t :
  Metric.metric_name on_host = Some (VStr "tflops") ∧
  Metric.value on_host = Some three_samples ∧
  payload_values_of three_samples = Some [VInt 10; VInt 20; VInt 30] ∧
  Metric.labels on_host = Some (Some host_labels) ∧
  host_labels !! "hostname" = Some "h" ∧
  host_labels !! "accelerator_type" = Some "t" ∧
  host_labels !! "accelerator_labels" = None ∧
  ∃ entry,
    loop_body a_client 0 "run-1" "us-central1" on_host
      = Returned (Logged entry) ∧
    payload entry !! "accelerator_labels"
      = Some (VList [VStr "h-t0"; VStr "h-t1"; VStr "h-t2"]).
Proof.
  do 7 (split; [reflexivity|]).
  exact (accelerator_labels_by_sample_index a_client 0 "run-1" "us-central1"
           on_host (VStr "tflops") three_samples [VInt 10; VInt 20; VInt 30]
           host_labels "h" "t"
           eq_refl eq_refl eq_refl eq_refl eq_refl eq_refl eq_refl).
Defined.

(** C6, as stated, fails in its last part: the labels are merged with
    [update], which overwrites.  Labels named 'values' and 'step_index' do
    show in the payload, but the list of samples and the step computed
    before are gone. *)
Lemma labels_replace_derived_keys :
  shadowing_labels ≠ ∅ ∧
  ∃ entry,
    loop_body a_client 0 "run-1" "us-central1" shadowed
      = Returned (Logged entry) ∧
    payload entry !! "values" = Some (VStr "per-chip") ∧
    payload entry !! "values" ≠ Some (VList [VInt 3]) ∧
    payload entry !! "step_index" = Some (VStr "warmup") ∧
    payload entry !! "step_index" ≠ Some (VInt 7).
Proof.
  split.
  { intros H. apply (f_equal (λ m : gmap string string, m !! "values")) in H.
    vm_compute in H. discriminate H. }
  eexists. split; [reflexivity|].
  split; [reflexivity|]. split; [intros H; vm_compute in H; discriminate H|].
  split; [reflexivity|]. intros H; vm_compute in H; discriminate H.
Qed.

(** C6, amended: every key/value pair of the labels is a top-level pair of
    the payload; each derived key ('values', 'step_index' when the step is
    not [None], 'accelerator_labels' when 'hostname' and 'accelerator_type'
    are both labels) holds its computed content provided no label has that
    name. *)
Theorem labels_flattened_into_payload
    self current_time run_id location (metric : Metric.t)
    (metric_name value : pyval) (payload_values : list pyval)
    (labels : gmap string string) :
  Metric.metric_name metric = Some metric_name →
  Metric.value metric = Some value →
  payload_values_of value = Some payload_values →
  Metric.labels metric = Some (Some labels) →
  ∃ entry,
    loop_body self current_time run_id location metric
      = Returned (Logged entry) ∧
    (∀ k v, labels !! k = Some v → payload entry !! k = Some (VStr v)) ∧
    (labels !! "values" = None →
     payload entry !! "values" = Some (VList payload_values)) ∧
    (labels !! "step_index" = None →
     payload entry !! "step_index"
       = match Metric.get_step metric with
         | VNone => None
         | step => Some step
         end) ∧
    (labels !! "accelerator_labels" = None →
     payload entry !! "accelerator_labels"
       = match labels !! "hostname", labels !! "accelerator_type" with
         | Some hostname, Some accelerator_type =>
             Some (VList (accelerator_labels hostname accelerator_type
                            payload_values))
         | _, _ => None
         end).
Proof.
  intros Hn Hv Hvs Hl.
  unfold loop_body. rewrite Hn, Hv, Hvs. eexists. split; [reflexivity|].
  simpl. unfold Metric.get_labels. rewrite Hl. simpl.
  split; [intros k v; apply build_payload_label|].
  split; [apply build_payload_values|].
  split; [|apply build_payload_accelerator_labels].
  intros Hk. rewrite build_payload_step_index by done.
  by destruct (Metric.get_step metric).
Qed.

Lemma labels_flattened_into_payload_team :
  Metric.metric_name on_host_step7 = Some (VStr "tflops") ∧
  Metric.value on_host_step7 = Some three_samples ∧
  payload_values_of three_samples = Some [VInt 10; VInt 20; VInt 30] ∧
  Metric.labels on_host_step7 = Some (Some team_labels) ∧
  ∃ entry,
    loop_body a_client 0 "run-1" "us-central1" on_host_step7
      = Returned (Logged entry) ∧
    (∀ k v, team_labels !! k = Some v → payload entry !! k = Some (VStr v)) ∧
    (team_labels !! "values" = None →
     payload entry !! "values" = Some (VList [VInt 10; VInt 20; VInt 30])) ∧
    (team_labels !! "step_index" = None →
     payload entry !! "step_index" = Some (VInt 7)) ∧
    (team_labels !! "accelerator_labels" = None →
     payload entry !! "accelerator_labels"
       = Some (VList [VStr "h-t0"; VStr "h-t1"; VStr "h-t2"])).
Proof.
  do 4 (split; [reflexivity|]).
  exact (labels_flattened_into_payload a_client 0 "run-1" "us-central1"
           on_host_step7 (VStr "tflops") three_samples
           [VInt 10; VInt 20; VInt 30] team_labels
           eq_refl eq_refl eq_refl eq_refl).
Defined.

(** ** C7-C10: the batch as a whole *)

(** C7 (aggregate failure): whether the loop raises or the commit on
    leaving the [with] block does, [write_metrics] raises one
    [MLDiagnosticError] whose message is "Failed to write metrics batch to
    Cloud Logging: " followed by the cause and whose cause is the exception
    caught; the sink holds what it held before, and the logger has received
    nothing but the warnings of skipped records: no count, no list of
    records. *)
Theorem write_metrics_failure_is_one_error
    self commit current_time (metrics : list Metric.t) run_id location w cause :
  (fill_batch self current_time run_id location metrics [] (log w)).1
    = Raised cause ∨
  (∃ batch,
     (fill_batch self current_time run_id location metrics [] (log w)).1
       = Returned batch ∧
     commit batch = Some cause) →
  ∃ warnings,
    write_metrics self commit current_time metrics run_id location w
      = (Raised (MLDiagnosticError
                   ("Failed to write metrics batch to Cloud Logging: "
                      ++ exn_str cause) cause),
         World (sink w) (log w ++ warnings)) ∧
    Forall is_warning warnings.
Proof.
  intros Hfail. unfold write_metrics, write_metrics_try, leave_batch_scope.
  destruct (fill_batch_spec self current_time run_id location metrics []
              (log w)) as [(pre & m & post & e & _ & _ & _ & Hf)|[_ Hf]];
    rewrite Hf in *; simpl in *.
  - destruct Hfail as [[= ->]|(b & [=] & _)].
    eexists. split; [reflexivity|apply warnings_are_warnings].
  - destruct Hfail as [[=]|(b & [= <-] & Hc)]. rewrite Hc.
    eexists. split; [reflexivity|apply warnings_are_warnings].
Qed.

Lemma write_metrics_failure_is_one_error_unavailable :
  (∃ batch,
     (fill_batch a_client 0 "run-1" "us-central1" batch_of_three [] []).1
       = Returned batch ∧
     commit_unavailable batch = Some (SinkError "503 Service Unavailable")) ∧
  ∃ warnings,
    write_metrics a_client commit_unavailable 0 batch_of_three
      "run-1" "us-central1" empty_world
      = (Raised (MLDiagnosticError
                   "Failed to write metrics batch to Cloud Logging: 503 Service Unavailable"
                   (SinkError "503 Service Unavailable")),
         World [] warnings) ∧
    Forall is_warning warnings.
Proof.
  assert (∃ batch,
            (fill_batch a_client 0 "run-1" "us-central1" batch_of_three [] []).1
              = Returned batch ∧
            commit_unavailable batch = Some (SinkError "503 Service Unavailable"))
    as H by (eexists; split; reflexivity).
  split; [exact H|].
  exact (write_metrics_failure_is_one_error a_client commit_unavailable 0
           batch_of_three "run-1" "us-central1" empty_world
           (SinkError "503 Service Unavailable") (or_intror H)).
Defined.

(** C8: the count in the closing message is [len(metrics)], records
    skipped for their value type included.  Of the three records of this
    batch the second is skipped: two entries reach the sink, and the
    message says 3. *)
Lemma write_metrics_counts_skipped_record :
  ∃ entry1 entry2 warning,
    write_metrics a_client commit_ok 0 batch_of_three "run-1" "us-central1"
      empty_world
    = (Returned (),
       World [entry1; entry2]
             [warning;
              LogRecord "INFO" "Successfully written %d metrics in batch."
                [ArgLen 3]]) ∧
    is_warning warning.
Proof. do 3 eexists. split; reflexivity. Qed.

(** C9 (one timestamp): every entry that an iteration hands to
    [batch.log_struct] bears the clock reading taken at line 126 and the
    severity INFO; so do all entries of the batch the loop has filled, and
    all entries a call adds to the sink. *)
Theorem write_metrics_one_timestamp
    self commit current_time (metrics : list Metric.t) run_id location w :
  let stamped entry :=
    timestamp entry = current_time ∧ severity entry = "INFO" in
  (∀ metric entry,
     loop_body self current_time run_id location metric
       = Returned (Logged entry) → stamped entry) ∧
  (∀ batch,
     (fill_batch self current_time run_id location metrics [] (log w)).1
       = Returned batch → Forall stamped batch) ∧
  ∃ added,
    sink (write_metrics self commit current_time metrics run_id location w).2
      = (sink w ++ added)%list ∧
    Forall stamped added.
Proof.
  intros stamped.
  assert (∀ l, Forall stamped
                 (omap (entry_of self current_time run_id location) l))
    as Hall.
  { intros l. apply Forall_forall.
    intros e (m & _ & Hm)%list_elem_of_omap.
    by apply entry_of_stamped in Hm. }
  split; [|split].
  - intros m e Hm.
    apply (entry_of_stamped self current_time run_id location m).
    unfold entry_of. by rewrite Hm.
  - intros batch.
    destruct (fill_batch_spec self current_time run_id location metrics []
                (log w)) as [(pre & m & post & e & _ & _ & _ & ->)|[_ ->]];
      simpl; [done|]. intros [= <-]. apply Hall.
  - destruct (write_metrics_spec self commit current_time metrics run_id
                location w) as [(pre & m & post & e & _ & _ & _ & ->)|[_ ->]];
      simpl.
    + exists []. split; [by rewrite app_nil_r|constructor].
    + destruct (commit _); simpl.
      * exists []. split; [by rewrite app_nil_r|constructor].
      * eexists. split; [reflexivity|apply Hall].
Qed.

(** C10 (missing key): a batch holding a dict without the key
    'metric_name' or without the key 'value' makes the call raise one
    [MLDiagnosticError], caused by the [KeyError] of the first such
    subscript, and leaves the sink as it was; the record is not skipped. *)
Theorem write_metrics_missing_key_fails_batch
    self commit current_time (metrics : list Metric.t) run_id location w :
  Exists (λ metric, Metric.metric_name metric = None ∨
                    Metric.value metric = None) metrics →
  ∃ key warnings,
    (key = "metric_name" ∨ key = "value") ∧
    write_metrics self commit current_time metrics run_id location w
      = (Raised (MLDiagnosticError
                   ("Failed to write metrics batch to Cloud Logging: "
                      ++ exn_str (KeyError key)) (KeyError key)),
         World (sink w) (log w ++ warnings)) ∧
    Forall is_warning warnings.
Proof.
  intros Hex.
  destruct (write_metrics_spec self commit current_time metrics run_id
              location w) as [(pre & m & post & e & _ & _ & Hm & ->)|[Hall _]].
  - pose proof (loop_body_cases self current_time run_id location m) as Hc.
    rewrite Hm in Hc.
    destruct Hc as [[_ ->]|(_ & _ & ->)]; eexists _, _;
      (split; [|split; [reflexivity|apply warnings_are_warnings]]); auto.
  - exfalso. apply Exists_exists in Hex as (m & Hin & Hm).
    rewrite Forall_forall in Hall.
    destruct (Hall m Hin) as [[n Hn] [v Hv]].
    destruct Hm; congruence.
Qed.

Lemma write_metrics_missing_key_fails_batch_without_value :
  Exists (λ metric, Metric.metric_name metric = None ∨
                    Metric.value metric = None)
    [loss_042; not_a_number; without_value; lr_step5] ∧
  ∃ key warnings,
    (key = "metric_name" ∨ key = "value") ∧
    write_metrics a_client commit_ok 0
      [loss_042; not_a_number; without_value; lr_step5]
      "run-1" "us-central1" empty_world
      = (Raised (MLDiagnosticError
                   ("Failed to write metrics batch to Cloud Logging: "
                      ++ exn_str (KeyError key)) (KeyError key)),
         World [] warnings) ∧
    Forall is_warning warnings.
Proof.
  assert (Exists (λ metric, Metric.metric_name metric = None ∨
                            Metric.value metric = None)
            [loss_042; not_a_number; without_value; lr_step5]) as H
    by (do 2 apply Exists_cons_tl; apply Exists_cons_hd; by right).
  split; [exact H|].
  exact (write_metrics_missing_key_fails_batch a_client commit_ok 0
           [loss_042; not_a_number; without_value; lr_step5]
           "run-1" "us-central1" empty_world H).
Defined.

(** * Further properties of [record] and [record_metrics] *)

(** After a pass with a batch-level step, or for a pass without one, a
    further pass finds nothing to do. *)
Lemma normalize_absorb (d d' : option Z) (m : Metric.t) :
  d' = None ∨ is_Some d → normalize d' (normalize d m) = normalize d m.
Proof.
  intros Hd. apply normalize_id.
  - intros member v. rewrite normalize_metric_name.
    destruct (Metric.metric_name m) as [[]|]; discriminate.
  - destruct Hd as [->|[z ->]]; [by left|right].
    destruct (Metric.step m) as [s|] eqn:Hs.
    + rewrite (normalize_step_present _ _ _ Hs). eauto.
    + rewrite (normalize_step_absent _ _ Hs). simpl. eauto.
Qed.

Lemma normalize_canonical_name (d : option Z) (m : Metric.t) :
  Metric.metric_name (normalize d m) = canonical_name <$> Metric.metric_name m.
Proof.
  rewrite normalize_metric_name.
  by destruct (Metric.metric_name m) as [[]|].
Qed.

(** The recorder never sees a member of the enumeration as a name: in every
    dict of the batch, a 'metric_name' that is a member has been replaced by
    the member's value, and any other name (or the lack of one) is as it
    was. *)
Theorem record_metrics_unwraps_enum_names
    (metrics_data : list ref) (record_on_all_hosts : bool) (d : option Z)
    (σ : store) (a : ref) (m : Metric.t) :
  a ∈ metrics_data → σ !! a = Some m →
  ∃ σ' : store,
    (∀ R (recorder : list ref → bool → store → R),
       record_metrics recorder metrics_data record_on_all_hosts d σ
       = recorder metrics_data record_on_all_hosts σ') ∧
    ∃ m', σ' !! a = Some m' ∧
      Metric.metric_name m' = canonical_name <$> Metric.metric_name m ∧
      ∀ member member_value,
        Metric.metric_name m' ≠ Some (VEnum member member_value).
Proof.
  intros Hin Ha.
  exists (normalize_loop d metrics_data [] σ).2.
  split; [intros; apply record_metrics_unfold|].
  exists (normalize d m).
  split; [by rewrite normalize_loop_lookup, decide_True, Ha|].
  split; [apply normalize_canonical_name|].
  intros member v. rewrite normalize_canonical_name.
  by destruct (Metric.metric_name m) as [[]|].
Qed.

Lemma record_metrics_unwraps_enum_names_tf_flops :
  0 ∈ [0; 1] ∧ enum_store !! 0 = Some tf_flops_enum ∧
  ∃ σ' : store,
    (∀ R (recorder : list ref → bool → store → R),
       record_metrics recorder [0; 1] false None enum_store
       = recorder [0; 1] false σ') ∧
    ∃ m', σ' !! 0 = Some m' ∧
      Metric.metric_name m' = Some (VStr "tf_flops") ∧
      ∀ member member_value,
        Metric.metric_name m' ≠ Some (VEnum member member_value).
Proof.
  assert (0 ∈ [0; 1]) as Hin by left.
  split; [exact Hin|]. split; [reflexivity|].
  exact (record_metrics_unwraps_enum_names [0; 1] false None enum_store 0
           tf_flops_enum Hin eq_refl).
Defined.

(** A batch-level step never replaces one that an earlier call has filled
    in: recording the same list again, with whatever batch-level step, hands
    the recorder the dicts as the first call left them, provided the first
    call had a batch-level step or the second has none. *)
Theorem record_metrics_first_default_wins
    {R} (recorder : list ref → bool → store → R)
    (metrics_data : list ref) (record_on_all_hosts : bool) (d d' : option Z)
    (σ : store) :
  d' = None ∨ is_Some d →
  record_metrics
    (λ processed _ σ1,
       record_metrics recorder processed record_on_all_hosts d' σ1)
    metrics_data record_on_all_hosts d σ
  = record_metrics recorder metrics_data record_on_all_hosts d σ.
Proof.
  intros Hd. rewrite !record_metrics_unfold. f_equal.
  apply map_eq. intros a. rewrite !normalize_loop_lookup.
  case_decide; [|done].
  destruct (σ !! a) as [m|]; simpl; [|done].
  by rewrite normalize_absorb.
Qed.

Lemma record_metrics_first_default_wins_scenario :
  (Some 2%Z = None ∨ is_Some (Some 1%Z)) ∧
  record_metrics
    (λ processed _ σ1, record_metrics (λ _ _ σ2, σ2) processed false (Some 2%Z) σ1)
    [0; 1] false (Some 1%Z) scenario_store
  = record_metrics (λ _ _ σ2, σ2) [0; 1] false (Some 1%Z) scenario_store.
Proof.
  assert (Some 2%Z = None ∨ is_Some (Some 1%Z)) as H by (right; eauto).
  split; [exact H|].
  exact (record_metrics_first_default_wins (λ _ _ σ2, σ2) [0; 1] false
           (Some 1%Z) (Some 2%Z) scenario_store H).
Defined.

(** [record] creates one new dict and touches no other: the recorder is
    handed a one-element list whose reference was not in use, and a store
    that extends the old one at that reference with the four entries given,
    the name unwrapped if it is a member of the enumeration.  The 'step'
    entry is the caller's, even when it is [None]. *)
Theorem record_allocates_one_dict
    (metric_name value step : pyval) (labels : option (gmap string string))
    (record_on_all_hosts : bool) (σ : store) :
  ∃ a : ref,
    σ !! a = None ∧
    ∀ R (recorder : list ref → bool → store → R),
      record recorder metric_name value step labels record_on_all_hosts σ
      = recorder [a] record_on_all_hosts
          (<[a := Metric.Make (Some (canonical_name metric_name)) (Some value)
                    (Some step) (Some labels)]> σ).
Proof.
  exists (fresh (dom σ)). split.
  - apply not_elem_of_dom. apply is_fresh.
  - intros R recorder. unfold record. rewrite record_metrics_unfold.
    f_equal. simpl. rewrite alter_insert_eq. f_equal.
    unfold normalize. simpl. by destruct metric_name.
Qed.

(** * Normalisation followed by entry building *)

(** The entry of a metric that has its two keys and a value of a supported
    type. *)
Lemma loop_body_logged self current_time run_id location (metric : Metric.t)
    (metric_name value : pyval) (payload_values : list pyval) :
  Metric.metric_name metric = Some metric_name →
  Metric.value metric = Some value →
  payload_values_of value = Some payload_values →
  loop_body self current_time run_id location metric
  = Returned (Logged
      (Entry (build_payload payload_values (Metric.get_step metric)
                (Metric.get_labels metric))
             "INFO" current_time
             (Resource.Make "generic_node"
                (list_to_map
                   [("project_id", VStr (project_id self));
                    ("location", VStr location);
                    ("namespace", metric_name);
                    ("node_id", VStr run_id)])))).
Proof. intros Hn Hv Hvs. unfold loop_body. by rewrite Hn, Hv, Hvs. Qed.

(** Only 'step_index' depends on the step. *)
Lemma build_payload_step_only payload_values (step step' : pyval)
    (labels : option (gmap string string)) (k : string) :
  k ≠ "step_index" →
  build_payload payload_values step labels !! k
  = build_payload payload_values step' labels !! k.
Proof.
  intros Hk. unfold build_payload.
  destruct (truthy labels) as [L|].
  - rewrite !lookup_union. f_equal.
    destruct (L !! "hostname"), (L !! "accelerator_type");
      destruct step; destruct step';
      by rewrite ?(lookup_insert_ne _ "step_index" k) by congruence.
  - destruct step; destruct step';
      by rewrite ?(lookup_insert_ne _ "step_index" k) by congruence.
Qed.

Lemma build_payload_step_index_free payload_values (step : pyval)
    (labels : option (gmap string string)) :
  (∀ L, labels = Some L → L !! "step_index" = None) →
  build_payload payload_values step labels !! "step_index"
  = match step with VNone => None | _ => Some step end.
Proof.
  intros Hfree. destruct labels as [L|].
  - by apply build_payload_step_index, Hfree.
  - unfold build_payload. simpl. by destruct step; simplify_map_eq.
Qed.

(** Normalising a description changes nothing in how the batch writer
    treats it: a dict that would raise for a missing key still raises the
    same error, one that would be skipped is still skipped, and one that
    gives an entry gives an entry with the same payload, 'step_index'
    aside. *)
Theorem normalize_keeps_write_outcome
    self current_time run_id location (d : option Z) (metric : Metric.t) :
  match loop_body self current_time run_id location metric with
  | Raised e =>
      loop_body self current_time run_id location (normalize d metric)
      = Raised e
  | Returned (Skipped _) =>
      ∃ warning,
        loop_body self current_time run_id location (normalize d metric)
        = Returned (Skipped warning)
  | Returned (Logged entry) =>
      ∃ entry',
        loop_body self current_time run_id location (normalize d metric)
        = Returned (Logged entry') ∧
        ∀ k, k ≠ "step_index" → payload entry' !! k = payload entry !! k
  end.
Proof.
  unfold loop_body, Metric.get_labels.
  rewrite normalize_canonical_name, normalize_value, normalize_labels.
  destruct (Metric.metric_name metric) as [n|]; simpl; [|done].
  destruct (Metric.value metric) as [v|]; [|done].
  destruct (payload_values_of v) as [vs|]; [|eauto].
  eexists. split; [reflexivity|]. simpl.
  intros k Hk. by apply build_payload_step_only.
Qed.

(** What reaches 'step_index' when a description is normalised and then
    written: its own step if the dict has a 'step' that is not [None], the
    batch-level step if the dict has no 'step' key, and nothing if there is
    neither, or if the dict holds 'step': None (which no batch-level step
    replaces).  Labels named 'step_index' are left aside. *)
Theorem step_index_after_normalize
    self current_time run_id location (d : option Z) (metric : Metric.t)
    (metric_name value : pyval) (payload_values : list pyval) :
  Metric.metric_name metric = Some metric_name →
  Metric.value metric = Some value →
  payload_values_of value = Some payload_values →
  (∀ L, Metric.get_labels metric = Some L → L !! "step_index" = None) →
  ∃ entry,
    loop_body self current_time run_id location (normalize d metric)
    = Returned (Logged entry) ∧
    payload entry !! "step_index"
    = match Metric.step metric with
      | Some VNone => None
      | Some step => Some step
      | None => VInt <$> d
      end.
Proof.
  intros Hn Hv Hvs Hfree.
  rewrite (loop_body_logged self current_time run_id location
             (normalize d metric) (canonical_name metric_name) value
             payload_values);
    [|by rewrite normalize_canonical_name, Hn|by rewrite normalize_value|done].
  eexists. split; [reflexivity|]. simpl.
  rewrite build_payload_step_index_free.
  - unfold Metric.get_step.
    destruct (Metric.step metric) as [s|] eqn:Hs.
    + rewrite (normalize_step_present _ _ _ Hs). simpl. by destruct s.
    + rewrite (normalize_step_absent _ _ Hs). by destruct d.
  - unfold Metric.get_labels in *. by rewrite normalize_labels.
Qed.

Lemma step_index_after_normalize_loss :
  Metric.metric_name loss_042 = Some (VStr "loss") ∧
  payload_values_of (VFloat (S754_finite false 7566047373982433 (-54)))
    = Some [VFloat (S754_finite false 7566047373982433 (-54))] ∧
  (∀ L, Metric.get_labels loss_042 = Some L → L !! "step_index" = None) ∧
  ∃ entry,
    loop_body a_client 0 "run-1" "us-central1" (normalize (Some 1%Z) loss_042)
    = Returned (Logged entry) ∧
    payload entry !! "step_index" = Some (VInt 1).
Proof.
  assert (∀ L : gmap string string,
            Metric.get_labels loss_042 = Some L → L !! "step_index" = None)
    as Hfree by (intros L HL; discriminate HL).
  split; [reflexivity|]. split; [reflexivity|]. split; [exact Hfree|].
  exact (step_index_after_normalize a_client 0 "run-1" "us-central1"
           (Some 1%Z) loss_042 (VStr "loss")
           (VFloat (S754_finite false 7566047373982433 (-54)))
           [VFloat (S754_finite false 7566047373982433 (-54))]
           eq_refl eq_refl eq_refl Hfree).
Defined.

(** A metric recorded under a member of the enumeration is written under
    the member's value: after normalisation the namespace of its resource is
    the canonical name. *)
Theorem namespace_after_normalize
    self current_time run_id location (d : option Z) (metric : Metric.t)
    (metric_name value : pyval) (payload_values : list pyval) :
  Metric.metric_name metric = Some metric_name →
  Metric.value metric = Some value →
  payload_values_of value = Some payload_values →
  ∃ entry,
    loop_body self current_time run_id location (normalize d metric)
    = Returned (Logged entry) ∧
    namespace entry = Some (canonical_name metric_name).
Proof.
  intros Hn Hv Hvs.
  rewrite (loop_body_logged self current_time run_id location
             (normalize d metric) (canonical_name metric_name) value
             payload_values);
    [|by rewrite normalize_canonical_name, Hn|by rewrite normalize_value|done].
  eexists. split; reflexivity.
Qed.

Lemma namespace_after_normalize_tf_flops :
  Metric.metric_name tf_flops_enum = Some (VEnum "TF_FLOPS" "tf_flops") ∧
  payload_values_of (VFloat (S754_finite false 8683503031523738 (-46)))
    = Some [VFloat (S754_finite false 8683503031523738 (-46))] ∧
  ∃ entry,
    loop_body a_client 0 "run-1" "us-central1" (normalize None tf_flops_enum)
    = Returned (Logged entry) ∧
    namespace entry = Some (VStr "tf_flops").
Proof.
  split; [reflexivity|]. split; [reflexivity|].
  exact (namespace_after_normalize a_client 0 "run-1" "us-central1" None
           tf_flops_enum (VEnum "TF_FLOPS" "tf_flops")
           (VFloat (S754_finite false 8683503031523738 (-46)))
           [VFloat (S754_finite false 8683503031523738 (-46))]
           eq_refl eq_refl eq_refl).
Defined.

(** * Further properties of [write_metrics] and [write_metric] *)

Section batch_facts.
Variable self : LoggingClient.
Variable commit : list StructEntry → option exn.
Variable current_time : Z.
Variables run_id location : string.

Local Abbreviation body := (loop_body self current_time run_id location).
Local Abbreviation fill := (fill_batch self current_time run_id location).
Local Abbreviation entries :=
  (omap (entry_of self current_time run_id location)).
Local Abbreviation warnings :=
  (omap (warning_of self current_time run_id location)).
Local Abbreviation write := (write_metrics self commit current_time).

Lemma entry_of_keys (metric : Metric.t) (metric_name value : pyval) :
  Metric.metric_name metric = Some metric_name →
  Metric.value metric = Some value →
  entry_of self current_time run_id location metric
  = (λ payload_values,
       Entry (build_payload payload_values (Metric.get_step metric)
                (Metric.get_labels metric))
             "INFO" current_time
             (Resource.Make "generic_node"
                (list_to_map
                   [("project_id", VStr (project_id self));
                    ("location", VStr location);
                    ("namespace", metric_name);
                    ("node_id", VStr run_id)])))
    <$> payload_values_of value.
Proof.
  intros Hn Hv. unfold entry_of, loop_body. rewrite Hn, Hv.
  by destruct (payload_values_of value).
Qed.

Lemma entries_length_le metrics :
  (length (entries metrics) ≤ length metrics)%nat.
Proof.
  induction metrics as [|m rest IH]; [done|].
  cbn [omap list_omap]. destruct (entry_of _ _ _ _ m); cbn [length]; lia.
Qed.

(** The loop up to the first dict that lacks a key. *)
Lemma fill_batch_stops pre metric post e batch lg :
  Forall has_required_keys pre →
  body metric = Raised e →
  fill (pre ++ metric :: post) batch lg = (Raised e, (lg ++ warnings pre)%list).
Proof.
  intros Hpre He. revert batch lg.
  induction Hpre as [|m pre Hm _ IH]; intros batch lg.
  - simpl. rewrite He. by rewrite app_nil_r.
  - apply (loop_body_returns self current_time run_id location) in Hm
      as [it Hit].
    cbn [app fill_batch omap list_omap]. unfold warning_of at 1.
    rewrite Hit. destruct it as [entry|warning].
    + apply IH.
    + rewrite IH. by rewrite <- app_assoc.
Qed.


Lemma entries_namespaces metrics :
  Forall has_required_keys metrics →
  namespace <$> entries metrics
  = Metric.metric_name <$> List.filter supported_value_type metrics.
Proof.
  induction 1 as [|m rest [[n Hn] [v Hv]] _ IH]; [done|].
  cbn [omap list_omap List.filter].
  rewrite (entry_of_keys m n v Hn Hv).
  assert (supported_value_type m = bool_decide (is_Some (payload_values_of v)))
    as -> by (unfold supported_value_type; rewrite Hv; by destruct v).
  destruct (payload_values_of v) as [vs|].
  - rewrite bool_decide_eq_true_2 by eauto.
    cbn [fmap option_fmap option_map]. rewrite !fmap_cons, IH, Hn.
    f_equal.
  - rewrite bool_decide_eq_false_2 by (by intros [? ?]). exact IH.
Qed.
End batch_facts.

(** Whatever happens, a call only appends: the sink keeps every entry it
    held, in place, and so does the logger; and a batch adds at most one
    entry per record. *)
Theorem write_metrics_only_appends
    self commit current_time (metrics : list Metric.t) run_id location w :
  ∃ added logged,
    sink (write_metrics self commit current_time metrics run_id location w).2
      = (sink w ++ added)%list ∧
    log (write_metrics self commit current_time metrics run_id location w).2
      = (log w ++ logged)%list ∧
    (length added ≤ length metrics)%nat.
Proof.
  destruct (write_metrics_spec self commit current_time metrics run_id
              location w) as [(pre & m & post & e & _ & _ & _ & ->)|[_ ->]].
  - exists [], (omap (warning_of self current_time run_id location) pre).
    simpl. rewrite app_nil_r. repeat split; lia.
  - destruct (commit _); simpl.
    + eexists [], _. rewrite app_nil_r. repeat split; simpl; lia.
    + eexists _, _. rewrite <- app_assoc.
      repeat split. apply entries_length_le.
Qed.

(** When a call returns, the entries it has added stand in the order of
    the records they come from: their namespaces are the names of the
    records of a supported value type, in batch order. *)
Theorem write_metrics_keeps_order
    self commit current_time (metrics : list Metric.t) run_id location w :
  (write_metrics self commit current_time metrics run_id location w).1
    = Returned () →
  ∃ added,
    sink (write_metrics self commit current_time metrics run_id location w).2
      = (sink w ++ added)%list ∧
    namespace <$> added
      = Metric.metric_name <$> List.filter supported_value_type metrics.
Proof.
  destruct (write_metrics_spec self commit current_time metrics run_id
              location w) as [(pre & m & post & e & _ & _ & _ & ->)|[Hall ->]];
    [done|].
  destruct (commit _); [done|]. intros _. eexists. split; [reflexivity|].
  by apply entries_namespaces.
Qed.

Lemma write_metrics_keeps_order_batch_of_three :
  (write_metrics a_client commit_ok 0 batch_of_three "run-1" "us-central1"
     empty_world).1 = Returned () ∧
  ∃ added,
    sink (write_metrics a_client commit_ok 0 batch_of_three "run-1"
            "us-central1" empty_world).2 = added ∧
    namespace <$> added = [Some (VStr "loss"); Some (VStr "lr")].
Proof.
  split; [reflexivity|].
  exact (write_metrics_keeps_order a_client commit_ok 0 batch_of_three
           "run-1" "us-central1" empty_world eq_refl).
Defined.

(** Every entry a call adds describes the same node: resource type
    generic_node with exactly four labels, of which 'project_id' is the
    client's project, 'location' and 'node_id' are the location and the run
    id of the call. *)
Theorem write_metrics_resources
    self commit current_time (metrics : list Metric.t) run_id location w :
  ∃ added,
    sink (write_metrics self commit current_time metrics run_id location w).2
      = (sink w ++ added)%list ∧
    Forall (λ entry,
              Resource.type (resource entry) = "generic_node" ∧
              Resource.labels (resource entry) !! "project_id"
                = Some (VStr (project_id self)) ∧
              Resource.labels (resource entry) !! "location"
                = Some (VStr location) ∧
              Resource.labels (resource entry) !! "node_id"
                = Some (VStr run_id) ∧
              size (Resource.labels (resource entry)) = 4) added.
Proof.
  assert (∀ l, Forall (λ entry,
              Resource.type (resource entry) = "generic_node" ∧
              Resource.labels (resource entry) !! "project_id"
                = Some (VStr (project_id self)) ∧
              Resource.labels (resource entry) !! "location"
                = Some (VStr location) ∧
              Resource.labels (resource entry) !! "node_id"
                = Some (VStr run_id) ∧
              size (Resource.labels (resource entry)) = 4)
            (omap (entry_of self current_time run_id location) l)) as Hall.
  { intros l. apply Forall_forall.
    intros e (m & _ & Hm)%list_elem_of_omap.
    pose proof (loop_body_cases self current_time run_id location m) as Hc.
    unfold entry_of in Hm.
    destruct (loop_body self current_time run_id location m)
      as [[e'|wr]|err] eqn:Hb; try discriminate.
    destruct Hc as (n & v & vs & Hn & Hv & Hvs & _).
    rewrite (loop_body_logged _ _ _ _ _ _ _ _ Hn Hv Hvs) in Hb.
    injection Hb as <-. injection Hm as <-. simpl.
    repeat split; reflexivity. }
  destruct (write_metrics_spec self commit current_time metrics run_id
              location w) as [(pre & m & post & e & _ & _ & _ & ->)|[_ ->]];
    simpl.
  - exists []. split; [by rewrite app_nil_r|constructor].
  - destruct (commit _); simpl.
    + exists []. split; [by rewrite app_nil_r|constructor].
    + eexists. split; [reflexivity|apply Hall].
Qed.

(** The first dict that lacks a key decides the error.  The records before
    it have been looked at (their warnings are logged), the records after it
    have not, the sink is not contacted, and the cause is the [KeyError] of
    'metric_name' if that key is missing, of 'value' otherwise. *)
Theorem write_metrics_first_missing_key
    self commit current_time (pre : list Metric.t) (metric : Metric.t)
    (post : list Metric.t) run_id location w :
  Forall has_required_keys pre →
  ¬ has_required_keys metric →
  write_metrics self commit current_time (pre ++ metric :: post)%list
    run_id location w
  = (Raised (wrap (KeyError (match Metric.metric_name metric with
                             | None => "metric_name"
                             | Some _ => "value"
                             end))),
     World (sink w)
           (log w ++ omap (warning_of self current_time run_id location) pre)).
Proof.
  intros Hpre Hm.
  assert (loop_body self current_time run_id location metric
          = Raised (KeyError (match Metric.metric_name metric with
                              | None => "metric_name"
                              | Some _ => "value"
                              end))) as Hb.
  { unfold loop_body.
    destruct (Metric.metric_name metric) as [n|] eqn:Hn; [|done].
    destruct (Metric.value metric) as [v|] eqn:Hv; [|done].
    destruct Hm. split; eauto. }
  unfold write_metrics, write_metrics_try.
  by rewrite (fill_batch_stops self current_time run_id location pre metric
                post _ [] (log w) Hpre Hb).
Qed.

Lemma two_good_records : Forall has_required_keys [loss_042; not_a_number].
Proof. repeat constructor; simpl; eauto. Defined.

Lemma without_both_lacks_keys : ¬ has_required_keys without_both.
Proof. intros [[n Hn] _]. discriminate Hn. Defined.

Lemma write_metrics_first_missing_key_name_first :
  Forall has_required_keys [loss_042; not_a_number] ∧
  ¬ has_required_keys without_both ∧
  write_metrics a_client commit_ok 0
    [loss_042; not_a_number; without_both; without_value]
    "run-1" "us-central1" empty_world
  = (Raised (MLDiagnosticError
               "Failed to write metrics batch to Cloud Logging: 'metric_name'"
               (KeyError "metric_name")),
     World [] [skip_warning (VStr "accuracy") (VStr "not a number")]).
Proof.
  split; [exact two_good_records|]. split; [exact without_both_lacks_keys|].
  exact (write_metrics_first_missing_key a_client commit_ok 0
           [loss_042; not_a_number] without_both [without_value]
           "run-1" "us-central1" empty_world
           two_good_records without_both_lacks_keys).
Defined.

(** ** The single-metric entry point *)

Lemma build_payload_values_free payload_values (step : pyval)
    (labels : option (gmap string string)) :
  (∀ L, labels = Some L → L !! "values" = None) →
  build_payload payload_values step labels !! "values"
  = Some (VList payload_values).
Proof.
  intros Hfree. destruct labels as [L|].
  - by apply build_payload_values, Hfree.
  - unfold build_payload. simpl. by destruct step; simplify_map_eq.
Qed.

(** [write_metric] with a [bool], [int] or [float] value hands the sink a
    batch of exactly one entry whose 'values' is the one-element list of that
    value (no label being named 'values'); the call returns if the sink
    accepts it and raises the wrapped cause, leaving sink and logger as they
    were, if it does not.  No key can be missing. *)
Theorem write_metric_wraps_scalar
    self commit current_time (metric_name value : pyval) run_id location
    (step : pyval) (labels : option (gmap string string)) w :
  isinstance_int_float value = true →
  (∀ L, labels = Some L → L !! "values" = None) →
  ∃ entry,
    payload entry !! "values" = Some (VList [value]) ∧
    write_metric self commit current_time metric_name value run_id location
      step labels w
    = match commit [entry] with
      | None =>
          (Returned (),
           World (sink w ++ [entry])
                 (log w ++ [LogRecord "INFO"
                              "Successfully written %d metrics in batch."
                              [ArgLen 1]]))
      | Some e => (Raised (wrap e), World (sink w) (log w))
      end.
Proof.
  intros Hnum Hfree.
  exists (Entry (build_payload [value] step labels) "INFO" current_time
            (Resource.Make "generic_node"
               (list_to_map
                  [("project_id", VStr (project_id self));
                   ("location", VStr location);
                   ("namespace", metric_name);
                   ("node_id", VStr run_id)]))).
  split; [simpl; by apply build_payload_values_free|].
  unfold write_metric, write_metrics, write_metrics_try. simpl.
  unfold loop_body, payload_values_of. simpl. rewrite Hnum. simpl.
  destruct (commit _); reflexivity.
Qed.

Lemma write_metric_wraps_scalar_true :
  isinstance_int_float (VBool true) = true ∧
  (∀ L : gmap string string, None = Some L → L !! "values" = None) ∧
  ∃ entry,
    payload entry !! "values" = Some (VList [VBool true]) ∧
    write_metric a_client commit_ok 0 (VStr "converged") (VBool true)
      "run-1" "us-central1" VNone None empty_world
    = match commit_ok [entry] with
      | None =>
          (Returned (),
           World [entry]
                 [LogRecord "INFO" "Successfully written %d metrics in batch."
                    [ArgLen 1]])
      | Some e => (Raised (wrap e), World [] [])
      end.
Proof.
  assert (∀ L : gmap string string, None = Some L → L !! "values" = None)
    as Hfree by (intros L HL; discriminate HL).
  split; [reflexivity|]. split; [exact Hfree|].
  exact (write_metric_wraps_scalar a_client commit_ok 0 (VStr "converged")
           (VBool true) "run-1" "us-central1" VNone None empty_world
           eq_refl Hfree).
Defined.

(** [write_metric] with a value of any other type but [list] writes
    nothing and does not fail for it: the sink is handed an empty batch, and
    when it accepts that, the call returns after a warning and the message
    that 1 metric was written. *)
Theorem write_metric_drops_unsupported
    self commit current_time (metric_name value : pyval) run_id location
    (step : pyval) (labels : option (gmap string string)) w :
  payload_values_of value = None →
  write_metric self commit current_time metric_name value run_id location
    step labels w
  = match commit [] with
    | None =>
        (Returned (),
         World (sink w)
               (log w ++ [skip_warning metric_name value;
                          LogRecord "INFO"
                            "Successfully written %d metrics in batch."
                            [ArgLen 1]]))
    | Some e =>
        (Raised (wrap e),
         World (sink w) (log w ++ [skip_warning metric_name value]))
    end.
Proof.
  intros Hv.
  unfold write_metric, write_metrics, write_metrics_try. simpl.
  unfold loop_body. simpl. rewrite Hv. simpl.
  destruct (commit []); simpl; [done|].
  by rewrite app_nil_r, <- app_assoc.
Qed.

Lemma write_metric_drops_unsupported_tuple :
  payload_values_of (VTuple [VInt 1; VInt 2]) = None ∧
  write_metric a_client commit_ok 0 (VStr "shape") (VTuple [VInt 1; VInt 2])
    "run-1" "us-central1" VNone None empty_world
  = (Returned (),
     World []
           [LogRecord "WARNING"
              "Skipping metric %s due to unsupported value type: %s"
              [ArgValue (VStr "shape"); ArgType "tuple"];
            LogRecord "INFO" "Successfully written %d metrics in batch."
              [ArgLen 1]]).
Proof.
  split; [reflexivity|].
  exact (write_metric_drops_unsupported a_client commit_ok 0 (VStr "shape")
           (VTuple [VInt 1; VInt 2]) "run-1" "us-central1" VNone None
           empty_world eq_refl).
Defined.

(** ** The keys of a payload *)

#[local] Set Warnings "-clear-no-such-hyp".

(** A payload has the key 'values', the key 'step_index' when the step is
    not [None], the key 'accelerator_labels' when both 'hostname' and
    'accelerator_type' are labels, the keys of the labels, and no other. *)
Theorem build_payload_keys (payload_values : list pyval) (step : pyval)
    (labels : option (gmap string string)) :
  dom (build_payload payload_values step labels)
  = {["values"]}
    ∪ (match step with VNone => ∅ | _ => {["step_index"]} end)
    ∪ (match labels with
       | Some L =>
           dom L ∪
           match L !! "hostname", L !! "accelerator_type" with
           | Some _, Some _ => {["accelerator_labels"]}
           | _, _ => ∅
           end
       | None => ∅
       end).
Proof.
  unfold build_payload. destruct labels as [L|]; simpl.
  - case_bool_decide as HL.
    + subst L. rewrite !lookup_empty, dom_empty_L.
      destruct step; rewrite ?dom_insert_L, dom_singleton_L; set_solver.
    + rewrite dom_union_L, dom_fmap_L.
      destruct (L !! "hostname"), (L !! "accelerator_type"), step;
        rewrite ?dom_insert_L, dom_singleton_L; set_solver.
  - destruct step; rewrite ?dom_insert_L, dom_singleton_L; set_solver.
Qed.

(** ** One batch or two *)



(** * Properties of [LoggingClient.__init__] *)

Section init_facts.
Context {Credentials ClientHandle LoggerHandle : Type}.
Variable cloud_logging_Client :
  string → option Credentials → gmap string string → result ClientHandle.
Variable client_logger : ClientHandle → string → result LoggerHandle.

Lemma init_environ_of_try project_id log_name credentials_path
    user_credentials environ :
  (init cloud_logging_Client client_logger project_id log_name
     credentials_path user_credentials environ).2
  = (init_try cloud_logging_Client client_logger project_id log_name
       credentials_path user_credentials environ).2.
Proof. unfold init. by destruct (init_try _ _ _ _ _ _ _) as [[]]. Qed.

Lemma init_try_environ project_id log_name credentials_path user_credentials
    environ :
  (init_try cloud_logging_Client client_logger project_id log_name
     credentials_path user_credentials environ).2
  = match user_credentials, truthy_path credentials_path with
    | None, Some path => <["GOOGLE_APPLICATION_CREDENTIALS" := path]> environ
    | _, _ => environ
    end.
Proof.
  unfold init_try.
  destruct user_credentials as [c|]; [|destruct (truthy_path _) as [path|]];
    (destruct (cloud_logging_Client _ _ _) as [client|e]; [|done]);
    by destruct (client_logger _ _).
Qed.

(** Explicit credentials come first: with them the credentials path is not
    looked at and the environment is left alone, whether the client can be
    built or not. *)
Theorem init_explicit_credentials_first
    (project_id log_name : string) (credentials_path : option string)
    (credentials : Credentials) (environ : gmap string string) :
  init cloud_logging_Client client_logger project_id log_name
    credentials_path (Some credentials) environ
  = init cloud_logging_Client client_logger project_id log_name
      None (Some credentials) environ ∧
  (init cloud_logging_Client client_logger project_id log_name
     credentials_path (Some credentials) environ).2 = environ.
Proof.
  split; [reflexivity|].
  by rewrite init_environ_of_try, init_try_environ.
Qed.


(** An empty credentials path counts as none, and a call without
    credentials path never writes to the environment. *)
Theorem init_empty_path_is_no_path
    (project_id log_name : string) (user_credentials : option Credentials)
    (environ : gmap string string) :
  init cloud_logging_Client client_logger project_id log_name
    (Some "") user_credentials environ
  = init cloud_logging_Client client_logger project_id log_name
      None user_credentials environ ∧
  (init cloud_logging_Client client_logger project_id log_name
     None user_credentials environ).2 = environ.
Proof.
  split.
  - unfold init, init_try. by destruct user_credentials.
  - rewrite init_environ_of_try, init_try_environ. by destruct user_credentials.
Qed.

(** [__init__] raises nothing but [MLDiagnosticError]: whatever the client
    class or the logger factory raises is the cause of one, under the
    message "Failed to initialize logging client: " followed by the cause.
    When it returns, the instance has the project and the log name given. *)
Theorem init_outcome
    (project_id log_name : string) (credentials_path : option string)
    (user_credentials : option Credentials) (environ : gmap string string) :
  match (init cloud_logging_Client client_logger project_id log_name
           credentials_path user_credentials environ).1 with
  | Returned self => self_fields self = Client project_id log_name
  | Raised e =>
      ∃ cause,
        e = MLDiagnosticError
              ("Failed to initialize logging client: " ++ exn_str cause) cause
  end.
Proof.
  unfold init, init_try.
  destruct user_credentials as [c|]; [|destruct (truthy_path _) as [path|]];
    (destruct (cloud_logging_Client _ _ _) as [client|e]; simpl; [|by eauto]);
    destruct (client_logger _ _); simpl; by eauto.
Qed.
End init_facts.

